(** * GreatBuy support-assistant tools: a shallow embedding of
    [mcp_server_remote.py] and the properties of its three handlers.

    The file follows the source: Python strings and their built-in
    operations first, then the values and dictionaries the order store
    holds, the store interface, the three tool handlers, and finally the
    theorems about them.

    Conventions of the embedding.
    - A Python [str] is a [string] whose characters are the code points
      U+0000 to U+00FF (Latin-1).  On that range [str.lower] maps one
      character to one character, which is what [lower] does.
    - The [print] calls of the handlers only write a diagnostic trace; the
      trace is not part of the model.
    - The handlers are [async] functions that never await: each call runs
      to completion, so a call is a function from the store before it to a
      result and the store after it. *)

From Stdlib Require Import Ascii String NArith.
From stdpp Require Import base option list gmap strings fin_maps.

(** ** Python strings *)

Module PyStr.

(** [str.lower] on one Latin-1 code point: the capital letters A-Z and
    the capital letters U+00C0-U+00DE (the multiplication sign U+00D7
    apart) move 32 places up; every other code point is its own lower
    case. *)
Definition lower_char (c : ascii) : ascii :=
  let n := N_of_ascii c in
  if ((65 <=? n) && (n <=? 90)
      || (192 <=? n) && (n <=? 222) && negb (n =? 215))%N
  then ascii_of_N (n + 32)
  else c.

(** [s.lower()] *)
Fixpoint lower (s : string) : string :=
  match s with
  | EmptyString => EmptyString
  | String c rest => String (lower_char c) (lower rest)
  end.

(** [s.startswith(p)] *)
Fixpoint startswith (p s : string) : bool :=
  match p, s with
  | EmptyString, _ => true
  | String _ _, EmptyString => false
  | String a p', String b s' => bool_decide (a = b) && startswith p' s'
  end.

(** [sub in s] for two strings: [sub] occurs in [s] at some position. *)
Fixpoint str_in (sub s : string) : bool :=
  startswith sub s
  || match s with
     | EmptyString => false
     | String _ s' => str_in sub s'
     end.

(** [sep.join(parts)] is the standard library's [String.concat]. *)
Definition join (sep : string) (parts : list string) : string :=
  String.concat sep parts.

(** Iterating over a [str] yields its characters as one-character
    strings. *)
Fixpoint chars (s : string) : list string :=
  match s with
  | EmptyString => []
  | String c rest => String c EmptyString :: chars rest
  end.

Definition squote : ascii := "'"%char.
Definition dquote : ascii := "034"%char.
Definition backslash : ascii := "092"%char.

Definition hex_digit (n : N) : ascii :=
  if (n <? 10)%N then ascii_of_N (48 + n) else ascii_of_N (87 + n).

Definition hex_escape (n : N) : string :=
  String backslash
    (String "x" (String (hex_digit (n / 16)) (String (hex_digit (n mod 16)) EmptyString))).

Fixpoint has_char (c : ascii) (s : string) : bool :=
  match s with
  | EmptyString => false
  | String a rest => bool_decide (a = c) || has_char c rest
  end.

(** [repr] of a [str] picks double quotes only when the text has a single
    quote and no double quote. *)
Definition repr_quote (s : string) : ascii :=
  if has_char squote s && negb (has_char dquote s) then dquote else squote.

(** One character inside [repr(s)], for the chosen quote [q]. *)
Definition repr_char (q c : ascii) : string :=
  let n := N_of_ascii c in
  if bool_decide (c = q) || bool_decide (c = backslash)
  then String backslash (String c EmptyString)
  else if (n =? 9)%N then String backslash "t"
  else if (n =? 10)%N then String backslash "n"
  else if (n =? 13)%N then String backslash "r"
  else if ((n <? 32) || (n =? 127))%N then hex_escape n
  else if (n <? 127)%N then String c EmptyString
  else if ((n <=? 160) || (n =? 173))%N then hex_escape n
  else String c EmptyString.

Fixpoint repr_body (q : ascii) (s : string) : string :=
  match s with
  | EmptyString => EmptyString
  | String c rest => repr_char q c +:+ repr_body q rest
  end.

(** [repr(s)] *)
Definition repr (s : string) : string :=
  let q := repr_quote s in
  String q (repr_body q s +:+ String q EmptyString).

End PyStr.

Import PyStr.

(** ** The wiki table and [search_wiki] *)

(** [_MOCK_WIKI_DB] is a dict from keyword to article text.  The handler
    walks it with [.items()], so the model keeps the pairs in insertion
    order. *)
Abbreviation wiki_table := (list (string * string)).

(** The first loop of [search_wiki]: the first keyword that occurs in the
    lowered query, or in which the lowered query occurs, wins. *)
Fixpoint find_keyword_match (query_lower : string) (items : wiki_table)
  : option string :=
  match items with
  | [] => None
  | (keyword, content) :: rest =>
      if str_in keyword query_lower || str_in query_lower keyword
      then Some content
      else find_keyword_match query_lower rest
  end.

(** The second loop: the first article whose lowered text has the lowered
    query in it. *)
Fixpoint find_content_match (query_lower : string) (items : wiki_table)
  : option string :=
  match items with
  | [] => None
  | (keyword, content) :: rest =>
      if str_in query_lower (lower content)
      then Some content
      else find_content_match query_lower rest
  end.

Definition search_wiki (_MOCK_WIKI_DB : wiki_table) (query : string) : string :=
  let query_lower := lower query in
  match find_keyword_match query_lower _MOCK_WIKI_DB with
  | Some content => content
  | None =>
      match find_content_match query_lower _MOCK_WIKI_DB with
      | Some content => content
      | None =>
          "I couldn't find specific information for '" +:+ query
          +:+ "' in our GreatBuy WIKI. Could you rephrase or ask about something else?"
      end
  end.

(** ** Values, order records and the seller table *)

(** The values an order record holds: [None], a [str], or a list of [str]
    (the items). *)
Inductive value : Type :=
| VNone
| VStr (s : string)
| VList (l : list string).

#[export] Instance value_eq_dec : EqDecision value.
Proof. solve_decision. Defined.

(** An order record is a Python dict keyed by field name. *)
Abbreviation order := (gmap string value).

(** A seller has the single attribute [name]. *)
Record Seller : Type := { name : string }.

(** [_MOCK_SELLERS_DB]: a dict from seller id to seller. *)
Abbreviation seller_table := (gmap string Seller).

(** Python truth value of a [value]: [None], the empty string and the
    empty list are false. *)
Definition truthy (v : value) : bool :=
  match v with
  | VNone => false
  | VStr s => negb (bool_decide (s = EmptyString))
  | VList l => negb (bool_decide (l = []))
  end.

(** What an f-string writes for [{v}]: [str(v)].  For a list that is its
    [repr]. *)
Definition py_str (v : value) : string :=
  match v with
  | VNone => "None"
  | VStr s => s
  | VList l => "[" +:+ join ", " (map repr l) +:+ "]"
  end.

(** ** Results and exceptions *)

(** The exceptions the handlers can raise on a record that does not have
    the expected shape. *)
Inductive exn : Type :=
| KeyError (key : string)
| AttributeError
| TypeError.

Inductive outcome (A : Type) : Type :=
| Returns (a : A)
| Raises (e : exn).

Arguments Returns {A} a.
Arguments Raises {A} e.

(** ** The order store *)

(** Modelled from the spec: the module [persistent_data] that defines
    [persistent_orders_db] is not part of the sources.  The spec gives the
    store's interface, [get(order_id) -> OrderRecord|absent] and
    [update(order_id, partial_fields) -> success:boolean]; [db_update]
    also returns the store after the call. *)
Class OrderStore (S : Type) : Type := {
  db_get : S → string → option order;
  db_update : S → string → order → bool * S
}.

(** Modelled from the spec: what a store does with an update it accepts.
    The fields of the patch are set on the stored record and no other
    field of it changes, which is [dict.update]: the patch united with the
    record, the patch winning. *)
Definition applies_updates (S : Type) `{OrderStore S} : Prop :=
  ∀ (db db' : S) (order_id : string) (patch o : order),
    db_get db order_id = Some o →
    db_update db order_id patch = (true, db') →
    db_get db' order_id = Some (patch ∪ o).

(** Modelled from the spec: a store kept in memory and written to a file.
    An update of a known order succeeds when the file can be written and
    fails otherwise, leaving the store as it was. *)
Record FileStore : Type := {
  orders : gmap string order;
  writable : bool
}.

#[export] Instance FileStore_store : OrderStore FileStore := {
  db_get fs order_id := orders fs !! order_id;
  db_update fs order_id patch :=
    match orders fs !! order_id with
    | Some o =>
        if writable fs
        then (true, {| orders := <[order_id := patch ∪ o]> (orders fs);
                       writable := writable fs |})
        else (false, fs)
    | None => (false, fs)
    end
}.

(** ** A state and exception monad for the handlers *)

(** A handler body: from the store before to a result and the store
    after.  A raised exception keeps the store as it is at that point. *)
Definition M (S A : Type) : Type := S → outcome A * S.

#[export] Instance M_ret {S} : MRet (M S) :=
  λ A (a : A) db, (Returns a, db).

#[export] Instance M_bind {S} : MBind (M S) :=
  λ A B (k : A → M S B) (m : M S A) db,
    match m db with
    | (Returns a, db') => k a db'
    | (Raises e, db') => (Raises e, db')
    end.

Definition raise {S A} (e : exn) : M S A := λ db, (Raises e, db).

Section Handlers.
Context {S : Type} `{OrderStore S}.

(** [persistent_orders_db.get(order_id)] *)
Definition get_order (order_id : string) : M S (option order) :=
  λ db, (Returns (db_get db order_id), db).

(** [persistent_orders_db.update(order_id, patch)] *)
Definition update_order (order_id : string) (patch : order) : M S bool :=
  λ db, let '(ok, db') := db_update db order_id patch in (Returns ok, db').

(** [if order:] holds for a record that is not [None] and not the empty
    dict; the handlers go on with that record. *)
Definition found (r : option order) : option order :=
  match r with
  | Some o => if decide (o = ∅) then None else Some o
  | None => None
  end.

(** [o[key]] *)
Definition getitem (o : order) (key : string) : M S value :=
  match o !! key with
  | Some v => mret v
  | None => raise (KeyError key)
  end.

(** [v.lower()]: only a [str] has the method. *)
Definition lower_of (v : value) : M S string :=
  match v with
  | VStr s => mret (lower s)
  | _ => raise AttributeError
  end.

(** [", ".join(v)]: a list of strings is joined, a string is joined
    character by character, [None] is not iterable. *)
Definition join_value (sep : string) (v : value) : M S string :=
  match v with
  | VList l => mret (join sep l)
  | VStr s => mret (join sep (chars s))
  | VNone => raise TypeError
  end.

(** [v in _MOCK_SELLERS_DB] and [_MOCK_SELLERS_DB[v]] in one lookup: a
    list is not hashable, [None] is no key of the table. *)
Definition lookup_seller (_MOCK_SELLERS_DB : seller_table) (v : value)
  : M S (option Seller) :=
  match v with
  | VStr s => mret (_MOCK_SELLERS_DB !! s)
  | VNone => mret None
  | VList _ => raise TypeError
  end.

(** [o.get(key)] is true in a condition. *)
Definition get_truthy (o : order) (key : string) : bool :=
  match o !! key with
  | Some v => truthy v
  | None => false
  end.

Definition read_order_status (_MOCK_SELLERS_DB : seller_table)
    (order_id : string) : M S string :=
  order ← get_order order_id;
  match found order with
  | Some order =>
      seller_name ←
        (if get_truthy order "seller_id"
         then
           sid ← getitem order "seller_id";
           seller ← lookup_seller _MOCK_SELLERS_DB sid;
           mret (match seller with
                | Some s => name s
                | None => "Unknown Seller"
                end)
         else mret "Unknown Seller");
      items_str ←
        join_value ", " (default (VList ["No items listed"]) (order !! "items"));
      status ← getitem order "status";
      let status_message :=
        "Order '" +:+ order_id +:+ "': Status is '" +:+ py_str status +:+ "'. "
        +:+ "Items: " +:+ items_str +:+ ". "
        +:+ "Seller: " +:+ seller_name +:+ ". "
        +:+ "Estimated Delivery: "
        +:+ py_str (default (VStr "N/A") (order !! "estimated_delivery_time"))
        +:+ ". " in
      if get_truthy order "special_instructions"
      then
        instructions ← getitem order "special_instructions";
        mret (status_message +:+ "Special Instructions: " +:+ py_str instructions)
      else mret status_message
  | None =>
      mret ("Sorry, I could not find a GreatBuy order with ID '" +:+ order_id +:+ "'.")
  end.

Definition cancellable_statuses : list string :=
  ["processing"; "awaiting shipment"; "preparing for shipment"].

(** The fields [update_order_status] passes to the store's update. *)
Definition cancellation_patch : order :=
  {[ "status" := VStr "Cancelled"; "estimated_delivery_time" := VNone ]}.

Definition update_order_status (order_id new_status : string) : M S string :=
  order ← get_order order_id;
  match found order with
  | None =>
      mret ("Sorry, I could not find a GreatBuy order with ID '" +:+ order_id
           +:+ "' to update.")
  | Some order =>
      let normalized_new_status := lower new_status in
      if bool_decide (normalized_new_status = "cancelled")
      then
        status ← getitem order "status";
        current_status_lower ← lower_of status;
        if bool_decide (current_status_lower ∈ cancellable_statuses)
        then
          update_result ← update_order order_id cancellation_patch;
          if (update_result : bool)
          then mret ("Order '" +:+ order_id +:+ "' has been successfully cancelled.")
          else mret ("Failed to update order '" +:+ order_id +:+ "' in database.")
        else if bool_decide (current_status_lower = "cancelled")
        then mret ("Order '" +:+ order_id +:+ "' is already cancelled.")
        else
          mret ("Order '" +:+ order_id
               +:+ "' cannot be cancelled because its current status is '"
               +:+ py_str status
               +:+ "'. Please refer to our cancellation policy or contact support for more help.")
      else
        status ← getitem order "status";
        mret ("This tool is primarily for cancelling orders. To change status to '"
             +:+ new_status +:+ "' is not supported via this action for order '"
             +:+ order_id +:+ "'. Current status remains '" +:+ py_str status +:+ "'.")
  end.

End Handlers.

(** ** What [read_order_status] writes for each part of a record *)

(** The parts of the status sentence, as relations between a record and the
    text written for it.  They say which text the handler is expected to
    write in which case, and are compared with [read_order_status] below. *)
Module Sentence.

(** The items: the listed items joined with a comma and a blank; the
    placeholder when the record has no [items] field. *)
Inductive items_text (o : order) : string → Prop :=
| items_listed (l : list string) :
    o !! "items" = Some (VList l) → items_text o (join ", " l)
| items_absent :
    o !! "items" = None → items_text o "No items listed".

(** The seller: the name of the seller the record refers to, and
    [Unknown Seller] when the record has no seller id, an empty one, or
    one that is not in the seller table. *)
Inductive seller_text (sellers : seller_table) (o : order) : string → Prop :=
| seller_resolved (sid : string) (s : Seller) :
    o !! "seller_id" = Some (VStr sid) → sid ≠ EmptyString →
    sellers !! sid = Some s → seller_text sellers o (name s)
| seller_unresolvable (sid : string) :
    o !! "seller_id" = Some (VStr sid) → sellers !! sid = None →
    seller_text sellers o "Unknown Seller"
| seller_empty :
    o !! "seller_id" = Some (VStr EmptyString) →
    seller_text sellers o "Unknown Seller"
| seller_none :
    o !! "seller_id" = Some VNone → seller_text sellers o "Unknown Seller"
| seller_absent :
    o !! "seller_id" = None → seller_text sellers o "Unknown Seller".


(** The special instructions: appended when the record has a non-empty
    text for them, nothing otherwise. *)
Inductive instructions_text (o : order) : string → Prop :=
| instructions_given (t : string) :
    o !! "special_instructions" = Some (VStr t) → t ≠ EmptyString →
    instructions_text o ("Special Instructions: " +:+ t)
| instructions_empty :
    o !! "special_instructions" = Some (VStr EmptyString) →
    instructions_text o EmptyString
| instructions_none :
    o !! "special_instructions" = Some VNone → instructions_text o EmptyString
| instructions_absent :
    o !! "special_instructions" = None → instructions_text o EmptyString.

End Sentence.

(** ** Sample data *)

(** A small wiki, seller table and order store in the shape the handlers
    expect, used to run the handlers on concrete inputs. *)
Module Sample.

Definition wiki : wiki_table :=
  [("shipping fees", "Shipping is free for orders above 50 dollars.");
   ("greatbuy premium", "GreatBuy Premium members get free next-day delivery.")].

(** Two keywords, the first of which occurs in the second. *)
Definition policy_wiki : wiki_table :=
  [("return", "Items can be returned within 30 days.");
   ("return policy", "Our return policy covers unopened items only.")].

Definition sellers : seller_table :=
  {[ "SEL001" := {| name := "Acme Electronics" |} ]}.

Definition processing_order : order :=
  {[ "status" := VStr "Processing";
     "items" := VList ["Laptop"; "Mouse"];
     "seller_id" := VStr "SEL001";
     "estimated_delivery_time" := VStr "Tomorrow";
     "special_instructions" := VStr "Leave at the door" ]}.

Definition delivered_order : order :=
  {[ "status" := VStr "Delivered";
     "items" := VList ["Phone case"];
     "seller_id" := VStr "SEL404" ]}.

Definition cancelled_order : order :=
  {[ "status" := VStr "Cancelled";
     "items" := VList ["Headphones"];
     "estimated_delivery_time" := VNone ]}.

(** An order whose list of items is empty. *)
Definition empty_order : order :=
  {[ "status" := VStr "Shipped"; "items" := VList [] ]}.

Definition records : gmap string order :=
  {[ "ORDZW001" := processing_order;
     "ORDZW002" := delivered_order;
     "ORDZW003" := cancelled_order;
     "ORDZW004" := empty_order ]}.

Definition db : FileStore := {| orders := records; writable := true |}.

(** The same store when its file cannot be written. *)
Definition readonly_db : FileStore := {| orders := records; writable := false |}.

End Sample.

(** Records that lack a field or hold a value of another type than the
    handlers expect, and a wiki with a keyword stored with a capital. *)
Module Odd.

Definition capital_wiki : wiki_table :=
  [("Returns", "Items can be sent back within 30 days.");
   ("shipping fees", "Shipping is free for orders above 50 dollars.")].

(** A record with no [status] field. *)
Definition no_status_order : order :=
  {[ "items" := VList ["Keyboard"] ]}.

(** A record whose status is [None]. *)
Definition none_status_order : order :=
  {[ "status" := VNone; "items" := VList ["Monitor"] ]}.

Definition records : gmap string order :=
  {[ "ORDZW010" := no_status_order;
     "ORDZW011" := none_status_order;
     "ORDZW012" := ∅ ]}.

Definition db : FileStore := {| orders := records; writable := true |}.

End Odd.

(** A handler step that leaves the store as it is, whatever it returns
    or raises. *)
Definition keeps_store {S A : Type} (m : M S A) : Prop :=
  ∀ db : S, (m db).2 = db.

(** ** Facts about the string operations *)

Section StringFacts.

Lemma append_nil_l (s : string) : EmptyString +:+ s = s.
Proof. reflexivity. Qed.

Lemma append_cons (c : ascii) (s t : string) :
  String c s +:+ t = String c (s +:+ t).
Proof. reflexivity. Qed.

Lemma append_empty_r (s : string) : s +:+ EmptyString = s.
Proof.
  induction s as [|c s IH]; [reflexivity |].
  by rewrite append_cons, IH.
Qed.

Lemma append_assoc (a b c : string) : (a +:+ b) +:+ c = a +:+ (b +:+ c).
Proof.
  induction a as [|x a IH]; [reflexivity |].
  by rewrite !append_cons, IH.
Qed.

Lemma startswith_append (p rest : string) : startswith p (p +:+ rest) = true.
Proof.
  induction p as [|c p IH]; [reflexivity |].
  rewrite append_cons. simpl. rewrite IH. by rewrite bool_decide_eq_true_2.
Qed.

Lemma str_in_startswith (sub s : string) :
  startswith sub s = true → str_in sub s = true.
Proof. intros Hp. destruct s; simpl; by rewrite Hp. Qed.

Lemma str_in_suffix (sub before s : string) :
  str_in sub s = true → str_in sub (before +:+ s) = true.
Proof.
  intros Hs. induction before as [|x before IH]; [exact Hs |].
  rewrite append_cons. simpl. rewrite IH. apply orb_true_r.
Qed.

(** [sub in before + sub + after] *)
Lemma str_in_middle (sub before after : string) :
  str_in sub (before +:+ sub +:+ after) = true.
Proof. apply str_in_suffix, str_in_startswith, startswith_append. Qed.

Lemma str_in_refl (s : string) : str_in s s = true.
Proof.
  pose proof (str_in_middle s EmptyString EmptyString) as Hm.
  by rewrite append_nil_l, append_empty_r in Hm.
Qed.

(** The empty string occurs in every string. *)
Lemma str_in_empty (s : string) : str_in EmptyString s = true.
Proof. destruct s; reflexivity. Qed.

Lemma lower_char_idem (c : ascii) : lower_char (lower_char c) = lower_char c.
Proof. destruct c as [[] [] [] [] [] [] [] []]; reflexivity. Qed.

Lemma lower_idem (s : string) : lower (lower s) = lower s.
Proof.
  induction s as [|c s IH]; simpl; [reflexivity |].
  by rewrite lower_char_idem, IH.
Qed.

Lemma startswith_lower (p s : string) :
  startswith p s = true → startswith (lower p) (lower s) = true.
Proof.
  revert s. induction p as [|a p IH]; intros [|b s]; simpl; try done.
  intros [Hab Hps]%andb_true_iff.
  apply bool_decide_eq_true_1 in Hab. subst b.
  rewrite (IH _ Hps). by rewrite bool_decide_eq_true_2.
Qed.

(** Lowering both sides keeps an occurrence. *)
Lemma str_in_lower (sub s : string) :
  str_in sub s = true → str_in (lower sub) (lower s) = true.
Proof.
  induction s as [|c s IH]; simpl.
  - rewrite orb_false_r. intros Hp.
    apply (startswith_lower sub EmptyString) in Hp. simpl in Hp. by rewrite Hp.
  - intros [Hp | Hin]%orb_true_iff.
    + apply (startswith_lower sub (String c s)) in Hp. simpl in Hp. by rewrite Hp.
    + rewrite (IH Hin). apply orb_true_r.
Qed.

End StringFacts.

(** ** [search_wiki] *)

Section WikiSearch.

(** No keyword before the end of the table matches: the keyword loop
    finds nothing. *)
Lemma find_keyword_match_none (q : string) (items : wiki_table) :
  Forall (λ e, str_in e.1 q = false ∧ str_in q e.1 = false) items →
  find_keyword_match q items = None.
Proof.
  induction 1 as [|[kw content] rest [Hkq Hqk] _ IH]; [reflexivity |].
  simpl in *. by rewrite Hkq, Hqk.
Qed.

(** Entries that do not match are skipped. *)
Lemma find_keyword_match_skip (q : string) (before items : wiki_table) :
  Forall (λ e, str_in e.1 q = false ∧ str_in q e.1 = false) before →
  find_keyword_match q (before ++ items) = find_keyword_match q items.
Proof.
  induction 1 as [|[kw content] rest [Hkq Hqk] _ IH]; [reflexivity |].
  simpl in *. by rewrite Hkq, Hqk.
Qed.

Lemma find_content_match_none (q : string) (items : wiki_table) :
  Forall (λ e, str_in q (lower e.2) = false) items →
  find_content_match q items = None.
Proof.
  induction 1 as [|[kw content] rest Hq _ IH]; [reflexivity |].
  simpl in *. by rewrite Hq.
Qed.

(** C3, as the spec states it, fails: in a table where the keyword
    [return] stands before the keyword [return policy], the query
    [Return Policy] equals the second keyword up to case, and
    [search_wiki] returns the article of the first. *)
Lemma search_wiki_exact_keyword_shadowed :
  NoDup (Sample.policy_wiki.*1)
  ∧ ("return policy", "Our return policy covers unopened items only.")
      ∈ Sample.policy_wiki
  ∧ lower "Return Policy" = lower "return policy"
  ∧ search_wiki Sample.policy_wiki "Return Policy"
    = "Items can be returned within 30 days."
  ∧ search_wiki Sample.policy_wiki "Return Policy"
    ≠ "Our return policy covers unopened items only.".
Proof.
  split; [| split; [| split; [| split]]].
  - apply (bool_decide_unpack _). by vm_compute.
  - unfold Sample.policy_wiki. set_solver.
  - reflexivity.
  - reflexivity.
  - by vm_compute.
Qed.

(** C3 (amended): when the lowered query is a keyword of the table and no
    keyword before it in insertion order occurs in the lowered query or
    has the lowered query in it, [search_wiki] returns that keyword's
    article. *)
Theorem search_wiki_exact_keyword
    (before after : wiki_table) (keyword content query : string) :
  lower query = keyword →
  Forall (λ e, str_in e.1 (lower query) = false
               ∧ str_in (lower query) e.1 = false) before →
  search_wiki (before ++ (keyword, content) :: after) query = content.
Proof.
  intros Hq Hbefore. unfold search_wiki.
  rewrite (find_keyword_match_skip _ _ _ Hbefore). simpl.
  rewrite Hq, str_in_refl. reflexivity.
Qed.

Lemma search_wiki_exact_keyword_witness :
  search_wiki Sample.wiki "GreatBuy Premium"
  = "GreatBuy Premium members get free next-day delivery.".
Proof.
  apply (search_wiki_exact_keyword
           [("shipping fees", "Shipping is free for orders above 50 dollars.")]
           [] "greatbuy premium" _ "GreatBuy Premium").
  - reflexivity.
  - repeat constructor.
Defined.

(** C8: a query that matches no keyword in either direction and occurs in
    no article, all compared without regard to case, gets the not-found
    message, which has the query as typed in it. *)
Theorem search_wiki_not_found (wiki : wiki_table) (query : string) :
  Forall (λ e, str_in (lower e.1) (lower query) = false
               ∧ str_in (lower query) (lower e.1) = false
               ∧ str_in (lower query) (lower e.2) = false) wiki →
  search_wiki wiki query
  = "I couldn't find specific information for '" +:+ query
    +:+ "' in our GreatBuy WIKI. Could you rephrase or ask about something else?"
  ∧ str_in query (search_wiki wiki query) = true.
Proof.
  intros Hnone.
  assert (search_wiki wiki query
          = "I couldn't find specific information for '" +:+ query
            +:+ "' in our GreatBuy WIKI. Could you rephrase or ask about something else?")
    as Hmsg.
  { unfold search_wiki.
    rewrite find_keyword_match_none, find_content_match_none; [reflexivity | |].
    - eapply Forall_impl; [exact Hnone |]. by intros e (_ & _ & ?).
    - eapply Forall_impl; [exact Hnone |]. intros e (Hkq & Hqk & _). split.
      + destruct (str_in e.1 (lower query)) eqn:Hin; [| reflexivity].
        apply str_in_lower in Hin. rewrite lower_idem in Hin. congruence.
      + destruct (str_in (lower query) e.1) eqn:Hin; [| reflexivity].
        apply str_in_lower in Hin. rewrite lower_idem in Hin. congruence. }
  split; [exact Hmsg |]. rewrite Hmsg. apply str_in_middle.
Qed.

Lemma search_wiki_not_found_witness :
  search_wiki Sample.wiki "Do you sell gift cards?"
  = "I couldn't find specific information for 'Do you sell gift cards?' in our GreatBuy WIKI. Could you rephrase or ask about something else?"
  ∧ str_in "Do you sell gift cards?"
      (search_wiki Sample.wiki "Do you sell gift cards?") = true.
Proof.
  apply (search_wiki_not_found Sample.wiki "Do you sell gift cards?").
  repeat constructor.
Defined.

(** C9: with the empty query and a table that is not empty,
    [search_wiki] returns the article of the table's first keyword, for
    the empty string occurs in every keyword. *)
Theorem search_wiki_empty_query
    (keyword content : string) (rest : wiki_table) :
  search_wiki ((keyword, content) :: rest) EmptyString = content.
Proof.
  unfold search_wiki. simpl. by rewrite str_in_empty, orb_true_r.
Qed.

End WikiSearch.

(** ** The order handlers *)

(** Unfolds a handler down to the store operations. *)
Ltac unfold_handler :=
  unfold update_order_status, read_order_status, update_order, get_order,
    getitem, lower_of, join_value, lookup_seller, raise;
  unfold mbind, mret, M_bind, M_ret.

Section OrderHandlers.
Context {S : Type} `{OrderStore S}.

(** A record with a field is not the empty dict: [if order:] holds. *)
Lemma found_record (o : order) (key : string) (v : value) :
  o !! key = Some v → found (Some o) = Some o.
Proof.
  intros Hkey. unfold found. destruct (decide (o = ∅)) as [-> |]; [| reflexivity].
  by rewrite lookup_empty in Hkey.
Qed.

(** [update_order_status] on a stored record that has a status: the call
    is the body of the handler after the lookup. *)
Lemma update_order_status_found
    (db : S) (order_id new_status : string) (o : order) (status : value) :
  db_get db order_id = Some o →
  o !! "status" = Some status →
  update_order_status order_id new_status db
  = if bool_decide (lower new_status = "cancelled")
    then
      match status with
      | VStr st =>
          if bool_decide (lower st ∈ cancellable_statuses)
          then
            match db_update db order_id cancellation_patch with
            | (true, db') =>
                (Returns ("Order '" +:+ order_id +:+ "' has been successfully cancelled."),
                 db')
            | (false, db') =>
                (Returns ("Failed to update order '" +:+ order_id +:+ "' in database."),
                 db')
            end
          else if bool_decide (lower st = "cancelled")
          then (Returns ("Order '" +:+ order_id +:+ "' is already cancelled."), db)
          else
            (Returns
               ("Order '" +:+ order_id
                +:+ "' cannot be cancelled because its current status is '" +:+ st
                +:+ "'. Please refer to our cancellation policy or contact support for more help."),
             db)
      | _ => (Raises AttributeError, db)
      end
    else
      (Returns
         ("This tool is primarily for cancelling orders. To change status to '"
          +:+ new_status +:+ "' is not supported via this action for order '"
          +:+ order_id +:+ "'. Current status remains '" +:+ py_str status +:+ "'."),
       db).
Proof.
  intros Hget Hstatus. unfold_handler.
  rewrite Hget, (found_record _ _ _ Hstatus), Hstatus.
  destruct (bool_decide (lower new_status = "cancelled")); [| reflexivity].
  destruct status as [|st|l]; try reflexivity.
  destruct (bool_decide (lower st ∈ cancellable_statuses)).
  - destruct (db_update db order_id cancellation_patch) as [[] db']; reflexivity.
  - destruct (bool_decide (lower st = "cancelled")); reflexivity.
Qed.

(** The cancellable statuses, and [cancelled] itself, as the handler
    tests them. *)
Lemma cancelled_not_cancellable :
  bool_decide ("cancelled" ∈ cancellable_statuses) = false.
Proof. by vm_compute. Qed.

(** C1: on an order whose status is [cancelled] up to case, a request to
    cancel returns the confirmation that the order is already cancelled,
    which has [already cancelled] in it, and leaves the store as it was;
    and whatever status is requested for such an order, the store stays
    as it was. *)
Theorem update_order_status_already_cancelled
    (db : S) (order_id new_status : string) (o : order) (st : string) :
  db_get db order_id = Some o →
  o !! "status" = Some (VStr st) →
  lower st = "cancelled" →
  lower new_status = "cancelled" →
  update_order_status order_id new_status db
  = (Returns ("Order '" +:+ order_id +:+ "' is already cancelled."), db)
  ∧ str_in "already cancelled"
      ("Order '" +:+ order_id +:+ "' is already cancelled.") = true
  ∧ ∀ requested : string,
      (update_order_status order_id requested db).2 = db.
Proof.
  intros Hget Hstatus Hst Hnew. split; [| split].
  - rewrite (update_order_status_found _ _ _ _ _ Hget Hstatus).
    rewrite Hnew, Hst, cancelled_not_cancellable. reflexivity.
  - by do 2 apply str_in_suffix.
  - intros requested.
    rewrite (update_order_status_found _ _ _ _ _ Hget Hstatus).
    rewrite Hst, cancelled_not_cancellable.
    by destruct (bool_decide (lower requested = "cancelled")).
Qed.

(** C5 (amended): for a stored order and a requested status whose lower
    case is not [cancelled], the request is rejected with the message
    that the tool is for cancelling orders, whatever the order's status,
    and the store stays as it was. *)
Theorem update_order_status_other_status_rejected
    (db : S) (order_id new_status : string) (o : order) (status : value) :
  db_get db order_id = Some o →
  o !! "status" = Some status →
  lower new_status ≠ "cancelled" →
  update_order_status order_id new_status db
  = (Returns
       ("This tool is primarily for cancelling orders. To change status to '"
        +:+ new_status +:+ "' is not supported via this action for order '"
        +:+ order_id +:+ "'. Current status remains '" +:+ py_str status +:+ "'."),
     db).
Proof.
  intros Hget Hstatus Hnew.
  rewrite (update_order_status_found _ _ _ _ _ Hget Hstatus).
  by rewrite (bool_decide_eq_false_2 _ Hnew).
Qed.

(** C6: on a stored order whose status is, up to case, neither
    [cancelled] nor one of the cancellable statuses, a request to cancel
    is rejected with a message that has the order's status as stored in
    it, and the store stays as it was. *)
Theorem update_order_status_not_cancellable
    (db : S) (order_id new_status : string) (o : order) (st : string) :
  db_get db order_id = Some o →
  o !! "status" = Some (VStr st) →
  lower new_status = "cancelled" →
  lower st ≠ "cancelled" →
  lower st ∉ ["processing"; "awaiting shipment"; "preparing for shipment"] →
  let message :=
    "Order '" +:+ order_id
    +:+ "' cannot be cancelled because its current status is '" +:+ st
    +:+ "'. Please refer to our cancellation policy or contact support for more help." in
  update_order_status order_id new_status db = (Returns message, db)
  ∧ str_in st message = true.
Proof.
  intros Hget Hstatus Hnew Hst Hnot message. split.
  - rewrite (update_order_status_found _ _ _ _ _ Hget Hstatus).
    rewrite Hnew. simpl.
    by rewrite (bool_decide_eq_false_2 _ Hnot), (bool_decide_eq_false_2 _ Hst).
  - unfold message.
    rewrite <- (append_assoc "Order '" order_id), <- append_assoc.
    apply str_in_middle.
Qed.

(** C7: when the order can be cancelled and the store's update reports
    failure, the handler returns the failure message and the store the
    update left.  The handler returns that message in no other case: a
    call that returns it, for whatever store, order and requested status,
    is a request to cancel an order that can be cancelled on which the
    store's update reported failure, so it is no not-found answer, no
    rejection and no confirmation.  As texts too, the failure message
    differs from the not-found message, from both rejection messages,
    from the confirmation of a cancellation and from the
    already-cancelled confirmation, whatever order they are about. *)
Theorem update_order_status_store_failure
    (db db' : S) (order_id new_status : string) (o : order) (st : string) :
  db_get db order_id = Some o →
  o !! "status" = Some (VStr st) →
  lower st ∈ ["processing"; "awaiting shipment"; "preparing for shipment"] →
  lower new_status = "cancelled" →
  db_update db order_id
    {[ "status" := VStr "Cancelled"; "estimated_delivery_time" := VNone ]}
  = (false, db') →
  let failure := "Failed to update order '" +:+ order_id +:+ "' in database." in
  update_order_status order_id new_status db = (Returns failure, db')
  ∧ (∀ (other_db : S) (other_id requested : string),
       (update_order_status other_id requested other_db).1 = Returns failure →
       ∃ (o2 : order) (st2 : string) (other_db' : S),
         db_get other_db other_id = Some o2
         ∧ o2 !! "status" = Some (VStr st2)
         ∧ lower st2
           ∈ ["processing"; "awaiting shipment"; "preparing for shipment"]
         ∧ lower requested = "cancelled"
         ∧ db_update other_db other_id
             {[ "status" := VStr "Cancelled"; "estimated_delivery_time" := VNone ]}
           = (false, other_db'))
  ∧ ∀ other_id requested status : string,
      failure ≠ "Sorry, I could not find a GreatBuy order with ID '" +:+ other_id
                +:+ "' to update."
      ∧ failure ≠ "Order '" +:+ other_id
                  +:+ "' cannot be cancelled because its current status is '"
                  +:+ status
                  +:+ "'. Please refer to our cancellation policy or contact support for more help."
      ∧ failure ≠ "This tool is primarily for cancelling orders. To change status to '"
                  +:+ requested +:+ "' is not supported via this action for order '"
                  +:+ other_id +:+ "'. Current status remains '" +:+ status +:+ "'."
      ∧ failure ≠ "Order '" +:+ other_id +:+ "' has been successfully cancelled."
      ∧ failure ≠ "Order '" +:+ other_id +:+ "' is already cancelled.".
Proof.
  intros Hget Hstatus Hst Hnew Hupdate failure. split; [| split].
  - rewrite (update_order_status_found _ _ _ _ _ Hget Hstatus).
    rewrite Hnew. simpl. rewrite (bool_decide_eq_true_2 _ Hst).
    fold cancellation_patch in Hupdate. by rewrite Hupdate.
  - intros other_db other_id requested. unfold failure. clear.
    destruct (db_get other_db other_id) as [o2|] eqn:Hget2.
    2: { unfold_handler. rewrite Hget2. simpl.
         intros Heq. vm_compute in Heq. discriminate Heq. }
    destruct (decide (o2 = ∅)) as [-> | Ho2].
    { unfold_handler. rewrite Hget2. unfold found. rewrite decide_True by done.
      simpl. intros Heq. vm_compute in Heq. discriminate Heq. }
    destruct (o2 !! "status") as [status2|] eqn:Hstatus2.
    2: { unfold_handler. rewrite Hget2. unfold found.
         rewrite decide_False by done. rewrite Hstatus2.
         by destruct (bool_decide (lower requested = "cancelled")). }
    rewrite (update_order_status_found _ _ _ _ _ Hget2 Hstatus2).
    destruct (bool_decide (lower requested = "cancelled")) eqn:Hreq.
    2: { simpl. intros Heq. vm_compute in Heq. discriminate Heq. }
    apply bool_decide_eq_true_1 in Hreq.
    destruct status2 as [|st2|l2]; [done | | done].
    destruct (bool_decide (lower st2 ∈ cancellable_statuses)) eqn:Hst2.
    + apply bool_decide_eq_true_1 in Hst2.
      destruct (db_update other_db other_id cancellation_patch)
        as [[] other_db'] eqn:Hupdate2.
      * simpl. intros Heq. vm_compute in Heq. discriminate Heq.
      * intros _. by exists o2, st2, other_db'.
    + destruct (bool_decide (lower st2 = "cancelled"));
        simpl; intros Heq; vm_compute in Heq; discriminate Heq.
  - intros other_id requested status. unfold failure.
    repeat split; intros Heq; vm_compute in Heq; discriminate Heq.
Qed.

(** C10: the requested status is compared without regard to case.  For
    a stored order, a request whose lower case is [cancelled] does what
    the request [cancelled] does, to the result and to the store, and a
    message it returns is not the rejection that the tool is for
    cancelling orders.  It takes the cancellation path: on an order that
    can be cancelled the store's update is called and its answer decides
    between the confirmation and the failure message, on a cancelled
    order the already-cancelled confirmation is returned, and on any
    other order the message that it cannot be cancelled. *)
Theorem update_order_status_any_casing
    (db : S) (order_id new_status : string) (o : order) (status : value) :
  db_get db order_id = Some o →
  o !! "status" = Some status →
  lower new_status = "cancelled" →
  update_order_status order_id new_status db
  = update_order_status order_id "cancelled" db
  ∧ (∀ message : string,
       (update_order_status order_id new_status db).1 = Returns message →
       startswith "This tool is primarily for cancelling orders." message = false)
  ∧ ∀ st : string,
      status = VStr st →
      (lower st ∈ ["processing"; "awaiting shipment"; "preparing for shipment"] →
       ∀ (accepted : bool) (db' : S),
         db_update db order_id
           {[ "status" := VStr "Cancelled"; "estimated_delivery_time" := VNone ]}
         = (accepted, db') →
         update_order_status order_id new_status db
         = (Returns
              (if accepted
               then "Order '" +:+ order_id +:+ "' has been successfully cancelled."
               else "Failed to update order '" +:+ order_id +:+ "' in database."),
            db'))
      ∧ (lower st = "cancelled" →
         update_order_status order_id new_status db
         = (Returns ("Order '" +:+ order_id +:+ "' is already cancelled."), db))
      ∧ (lower st ∉ ["processing"; "awaiting shipment"; "preparing for shipment"] →
         lower st ≠ "cancelled" →
         update_order_status order_id new_status db
         = (Returns
              ("Order '" +:+ order_id
               +:+ "' cannot be cancelled because its current status is '" +:+ st
               +:+ "'. Please refer to our cancellation policy or contact support for more help."),
            db)).
Proof.
  intros Hget Hstatus Hnew. split; [| split].
  - rewrite !(update_order_status_found _ _ _ _ _ Hget Hstatus).
    by rewrite Hnew.
  - intros message.
    rewrite (update_order_status_found _ _ _ _ _ Hget Hstatus), Hnew. simpl.
    destruct status as [|st|l]; simpl; try discriminate.
    destruct (bool_decide (lower st ∈ cancellable_statuses)).
    + destruct (db_update db order_id cancellation_patch) as [[] db'];
        simpl; intros [= <-]; reflexivity.
    + destruct (bool_decide (lower st = "cancelled"));
        simpl; intros [= <-]; reflexivity.
  - intros st ->.
    rewrite (update_order_status_found _ _ _ _ _ Hget Hstatus), Hnew. simpl.
    split; [| split].
    + intros Hst accepted db' Hupdate. fold cancellation_patch in Hupdate.
      rewrite (bool_decide_eq_true_2 _ Hst), Hupdate. by destruct accepted.
    + intros Hst. by rewrite Hst, cancelled_not_cancellable.
    + intros Hnot Hst.
      by rewrite (bool_decide_eq_false_2 _ Hnot), (bool_decide_eq_false_2 _ Hst).
Qed.

(** C2: on a stored order whose status is, up to case, one of the
    cancellable statuses, a request to cancel that the store accepts
    returns the confirmation; in the store after the call the record has
    the status [Cancelled] and the estimated delivery time [None], and
    every other field of it is as before. *)
Theorem update_order_status_cancels
    (db db' : S) (order_id new_status : string) (o : order) (st : string) :
  applies_updates S →
  db_get db order_id = Some o →
  o !! "status" = Some (VStr st) →
  lower st ∈ ["processing"; "awaiting shipment"; "preparing for shipment"] →
  lower new_status = "cancelled" →
  db_update db order_id
    {[ "status" := VStr "Cancelled"; "estimated_delivery_time" := VNone ]}
  = (true, db') →
  update_order_status order_id new_status db
  = (Returns ("Order '" +:+ order_id +:+ "' has been successfully cancelled."), db')
  ∧ ∃ o' : order,
      db_get db' order_id = Some o'
      ∧ o' !! "status" = Some (VStr "Cancelled")
      ∧ o' !! "estimated_delivery_time" = Some VNone
      ∧ ∀ field : string,
          field ≠ "status" → field ≠ "estimated_delivery_time" →
          o' !! field = o !! field.
Proof.
  intros Hstore Hget Hstatus Hst Hnew Hupdate. split.
  - rewrite (update_order_status_found _ _ _ _ _ Hget Hstatus).
    rewrite Hnew. simpl. rewrite (bool_decide_eq_true_2 _ Hst).
    fold cancellation_patch in Hupdate. by rewrite Hupdate.
  - eexists. split; [exact (Hstore _ _ _ _ _ Hget Hupdate) |].
    split; [| split].
    + apply lookup_union_Some_l. by rewrite lookup_insert_eq.
    + apply lookup_union_Some_l.
      rewrite lookup_insert_ne by done. by rewrite lookup_singleton_eq.
    + intros field Hne1 Hne2. apply lookup_union_r.
      rewrite lookup_insert_ne by done. by rewrite lookup_singleton_ne.
Qed.


End OrderHandlers.

(** ** The handlers on the sample store *)

Section OnSampleStore.

(** The store kept in a file does with an accepted update what
    [applies_updates] asks. *)
Lemma FileStore_applies_updates : applies_updates FileStore.
Proof.
  intros [records can_write] db' order_id patch o Hget.
  simpl in *. rewrite Hget.
  destruct can_write; intros [= <-]; simpl. apply lookup_insert_eq.
Qed.

Lemma update_order_status_already_cancelled_witness :
  update_order_status "ORDZW003" "cancelled" Sample.db
  = (Returns "Order 'ORDZW003' is already cancelled.", Sample.db)
  ∧ str_in "already cancelled" "Order 'ORDZW003' is already cancelled." = true
  ∧ ∀ requested : string,
      (update_order_status "ORDZW003" requested Sample.db).2 = Sample.db.
Proof.
  apply (update_order_status_already_cancelled
           Sample.db "ORDZW003" "cancelled" Sample.cancelled_order "Cancelled");
    by vm_compute.
Defined.

Lemma update_order_status_cancels_witness :
  update_order_status "ORDZW001" "cancelled" Sample.db
  = (Returns "Order 'ORDZW001' has been successfully cancelled.",
     {| orders := <["ORDZW001" := cancellation_patch ∪ Sample.processing_order]>
                    Sample.records;
        writable := true |})
  ∧ ∃ o' : order,
      db_get {| orders := <["ORDZW001" := cancellation_patch ∪ Sample.processing_order]>
                            Sample.records;
                writable := true |} "ORDZW001" = Some o'
      ∧ o' !! "status" = Some (VStr "Cancelled")
      ∧ o' !! "estimated_delivery_time" = Some VNone
      ∧ ∀ field : string,
          field ≠ "status" → field ≠ "estimated_delivery_time" →
          o' !! field = Sample.processing_order !! field.
Proof.
  apply (update_order_status_cancels
           Sample.db _ "ORDZW001" "cancelled" Sample.processing_order "Processing"
           FileStore_applies_updates);
    try apply (bool_decide_unpack _); by vm_compute.
Defined.



(** C5, as the spec states it, fails: the requested status [CANCELLED]
    is not the text [cancelled], and on an order that is being processed
    the request is not rejected: the order is cancelled and the store
    changes. *)
Lemma update_order_status_uppercase_cancels :
  "CANCELLED" ≠ "cancelled"
  ∧ db_get Sample.db "ORDZW001" = Some Sample.processing_order
  ∧ (update_order_status "ORDZW001" "CANCELLED" Sample.db).1
    = Returns "Order 'ORDZW001' has been successfully cancelled."
  ∧ db_get (update_order_status "ORDZW001" "CANCELLED" Sample.db).2 "ORDZW001"
      ≫= (.!! "status")
    = Some (VStr "Cancelled")
  ∧ (update_order_status "ORDZW001" "CANCELLED" Sample.db).2 ≠ Sample.db.
Proof.
  repeat split; by vm_compute.
Qed.

Lemma update_order_status_other_status_rejected_witness :
  update_order_status "ORDZW002" "shipped" Sample.db
  = (Returns
       "This tool is primarily for cancelling orders. To change status to 'shipped' is not supported via this action for order 'ORDZW002'. Current status remains 'Delivered'.",
     Sample.db).
Proof.
  apply (update_order_status_other_status_rejected
           Sample.db "ORDZW002" "shipped" Sample.delivered_order (VStr "Delivered"));
    by vm_compute.
Defined.

Lemma update_order_status_not_cancellable_witness :
  update_order_status "ORDZW002" "cancelled" Sample.db
  = (Returns
       "Order 'ORDZW002' cannot be cancelled because its current status is 'Delivered'. Please refer to our cancellation policy or contact support for more help.",
     Sample.db)
  ∧ str_in "Delivered"
      "Order 'ORDZW002' cannot be cancelled because its current status is 'Delivered'. Please refer to our cancellation policy or contact support for more help."
    = true.
Proof.
  apply (update_order_status_not_cancellable
           Sample.db "ORDZW002" "cancelled" Sample.delivered_order "Delivered").
  - by vm_compute.
  - by vm_compute.
  - by vm_compute.
  - by vm_compute.
  - apply (bool_decide_unpack _). by vm_compute.
Defined.

Lemma update_order_status_store_failure_witness :
  update_order_status "ORDZW001" "cancelled" Sample.readonly_db
  = (Returns "Failed to update order 'ORDZW001' in database.", Sample.readonly_db).
Proof.
  apply (update_order_status_store_failure
           Sample.readonly_db Sample.readonly_db "ORDZW001" "cancelled"
           Sample.processing_order "Processing").
  - by vm_compute.
  - by vm_compute.
  - apply (bool_decide_unpack _). by vm_compute.
  - by vm_compute.
  - by vm_compute.
Defined.

Lemma update_order_status_any_casing_witness :
  update_order_status "ORDZW001" "CANCELLED" Sample.db
  = update_order_status "ORDZW001" "cancelled" Sample.db.
Proof.
  apply (update_order_status_any_casing
           Sample.db "ORDZW001" "CANCELLED" Sample.processing_order
           (VStr "Processing"));
    by vm_compute.
Defined.

(** A read after the cancellation shows the new status, and the cleared
    delivery time as the text [None]. *)
Example read_after_cancellation :
  (read_order_status Sample.sellers "ORDZW001"
     (update_order_status "ORDZW001" "cancelled" Sample.db).2).1
  = Returns
      "Order 'ORDZW001': Status is 'Cancelled'. Items: Laptop, Mouse. Seller: Acme Electronics. Estimated Delivery: None. Special Instructions: Leave at the door".
Proof. by vm_compute. Qed.

(** An order id the store does not know. *)
Example read_unknown_order :
  read_order_status Sample.sellers "UNKNOWN99" Sample.db
  = (Returns "Sorry, I could not find a GreatBuy order with ID 'UNKNOWN99'.",
     Sample.db).
Proof. by vm_compute. Qed.

Example update_unknown_order :
  update_order_status "UNKNOWN99" "cancelled" Sample.db
  = (Returns "Sorry, I could not find a GreatBuy order with ID 'UNKNOWN99' to update.",
     Sample.db).
Proof. by vm_compute. Qed.

(** A keyword stored with a capital letter is not found by its own
    name: only the query is lowered. *)
Example search_wiki_capital_keyword :
  search_wiki [("Returns", "Items can be returned within 30 days.")] "returns"
  = "I couldn't find specific information for 'returns' in our GreatBuy WIKI. Could you rephrase or ask about something else?".
Proof. reflexivity. Qed.

Example search_wiki_question :
  search_wiki Sample.wiki "What are the Shipping Fees?"
  = "Shipping is free for orders above 50 dollars.".
Proof. reflexivity. Qed.

Example lower_latin1 : lower "GreatBuy PREMIUM" = "greatbuy premium".
Proof. reflexivity. Qed.

End OnSampleStore.

(** ** More about [search_wiki] *)

Section WikiSearchMore.

Lemma length_lower (s : string) : String.length (lower s) = String.length s.
Proof. induction s as [|c s IH]; simpl; [reflexivity | by rewrite IH]. Qed.

Lemma startswith_same_length (p s : string) :
  startswith p s = true → String.length p = String.length s → p = s.
Proof.
  revert s. induction p as [|a p IH]; intros [|b s]; simpl; try done.
  intros [Hab Hps]%andb_true_iff [= Hlen].
  apply bool_decide_eq_true_1 in Hab. subst b. by rewrite (IH _ Hps Hlen).
Qed.

Lemma startswith_length (p s : string) :
  startswith p s = true → String.length p ≤ String.length s.
Proof.
  revert s. induction p as [|a p IH]; intros [|b s]; simpl; try done; try lia.
  intros [_ Hps]%andb_true_iff. specialize (IH _ Hps). lia.
Qed.

Lemma str_in_length (sub s : string) :
  str_in sub s = true → String.length sub ≤ String.length s.
Proof.
  induction s as [|c s IH]; simpl.
  - rewrite orb_false_r. apply (startswith_length sub EmptyString).
  - intros [Hp | Hin]%orb_true_iff.
    + apply (startswith_length sub (String c s) Hp).
    + specialize (IH Hin). lia.
Qed.

(** A string that occurs in one of its own length is that string. *)
Lemma str_in_same_length (sub s : string) :
  str_in sub s = true → String.length sub = String.length s → sub = s.
Proof.
  destruct s as [|c s]; simpl.
  - rewrite orb_false_r. apply (startswith_same_length sub EmptyString).
  - intros [Hp | Hin]%orb_true_iff Hlen.
    + by apply (startswith_same_length sub (String c s)).
    + apply str_in_length in Hin. lia.
Qed.

Lemma find_content_match_skip (q : string) (before items : wiki_table) :
  Forall (λ e, str_in q (lower e.2) = false) before →
  find_content_match q (before ++ items) = find_content_match q items.
Proof.
  induction 1 as [|[kw content] rest Hq _ IH]; [reflexivity |].
  simpl in *. by rewrite Hq.
Qed.

Lemma find_keyword_match_article (q content : string) (items : wiki_table) :
  find_keyword_match q items = Some content → ∃ keyword, (keyword, content) ∈ items.
Proof.
  induction items as [|[kw c] rest IH]; simpl; [done |].
  destruct (str_in kw q || str_in q kw).
  - intros [= ->]. exists kw. apply list_elem_of_here.
  - intros [kw' Hin]%IH. exists kw'. by apply list_elem_of_further.
Qed.

Lemma find_content_match_article (q content : string) (items : wiki_table) :
  find_content_match q items = Some content → ∃ keyword, (keyword, content) ∈ items.
Proof.
  induction items as [|[kw c] rest IH]; simpl; [done |].
  destruct (str_in q (lower c)).
  - intros [= ->]. exists kw. apply list_elem_of_here.
  - intros [kw' Hin]%IH. exists kw'. by apply list_elem_of_further.
Qed.

(** X1: the first keyword that occurs in the lowered query, or in which
    the lowered query occurs, decides the answer: its article is
    returned, whatever the entries after it and whatever the articles
    before it say. *)
Theorem search_wiki_first_keyword_match
    (before after : wiki_table) (keyword content query : string) :
  Forall (λ e, str_in e.1 (lower query) = false
               ∧ str_in (lower query) e.1 = false) before →
  str_in keyword (lower query) = true ∨ str_in (lower query) keyword = true →
  search_wiki (before ++ (keyword, content) :: after) query = content.
Proof.
  intros Hbefore Hmatch. unfold search_wiki.
  rewrite (find_keyword_match_skip _ _ _ Hbefore). simpl.
  by destruct Hmatch as [-> | ->]; rewrite ?orb_true_r.
Qed.

Lemma search_wiki_first_keyword_match_witness :
  search_wiki Sample.wiki "PREMIUM"
  = "GreatBuy Premium members get free next-day delivery.".
Proof.
  apply (search_wiki_first_keyword_match
           [("shipping fees", "Shipping is free for orders above 50 dollars.")]
           [] "greatbuy premium" _ "PREMIUM").
  - repeat constructor.
  - right. reflexivity.
Defined.

(** X2: when no keyword matches the lowered query in either direction,
    the first article whose text has the query in it, compared without
    regard to case, is returned. *)
Theorem search_wiki_content_fallback
    (before after : wiki_table) (keyword content query : string) :
  Forall (λ e, str_in e.1 (lower query) = false
               ∧ str_in (lower query) e.1 = false)
    (before ++ (keyword, content) :: after) →
  Forall (λ e, str_in (lower query) (lower e.2) = false) before →
  str_in (lower query) (lower content) = true →
  search_wiki (before ++ (keyword, content) :: after) query = content.
Proof.
  intros Hkeywords Hbefore Hcontent. unfold search_wiki.
  rewrite (find_keyword_match_none _ _ Hkeywords).
  rewrite (find_content_match_skip _ _ _ Hbefore). simpl.
  by rewrite Hcontent.
Qed.

Lemma search_wiki_content_fallback_witness :
  search_wiki Sample.wiki "NEXT-DAY"
  = "GreatBuy Premium members get free next-day delivery.".
Proof.
  apply (search_wiki_content_fallback
           [("shipping fees", "Shipping is free for orders above 50 dollars.")]
           [] "greatbuy premium" _ "NEXT-DAY").
  - repeat constructor.
  - repeat constructor.
  - reflexivity.
Defined.

(** X3: [search_wiki] returns an article of the table or the not-found
    message for the query, nothing else. *)
Theorem search_wiki_article_or_not_found (wiki : wiki_table) (query : string) :
  (∃ keyword, (keyword, search_wiki wiki query) ∈ wiki)
  ∨ search_wiki wiki query
    = "I couldn't find specific information for '" +:+ query
      +:+ "' in our GreatBuy WIKI. Could you rephrase or ask about something else?".
Proof.
  unfold search_wiki.
  destruct (find_keyword_match (lower query) wiki) as [c|] eqn:Hk.
  - left. by apply (find_keyword_match_article (lower query)).
  - destruct (find_content_match (lower query) wiki) as [c|] eqn:Hc.
    + left. by apply (find_content_match_article (lower query)).
    + by right.
Qed.

(** X4: the case of the query does not matter to the search.  Two
    queries with the same lower case get the same article, or each gets
    the not-found message for itself. *)
Theorem search_wiki_query_case (wiki : wiki_table) (query1 query2 : string) :
  lower query1 = lower query2 →
  search_wiki wiki query1 = search_wiki wiki query2
  ∨ (search_wiki wiki query1
     = "I couldn't find specific information for '" +:+ query1
       +:+ "' in our GreatBuy WIKI. Could you rephrase or ask about something else?"
     ∧ search_wiki wiki query2
       = "I couldn't find specific information for '" +:+ query2
         +:+ "' in our GreatBuy WIKI. Could you rephrase or ask about something else?").
Proof.
  intros Hlower. unfold search_wiki. rewrite Hlower.
  destruct (find_keyword_match (lower query2) wiki); [by left |].
  destruct (find_content_match (lower query2) wiki); [by left | by right].
Qed.

Lemma search_wiki_query_case_witness :
  search_wiki Sample.wiki "SHIPPING FEES" = search_wiki Sample.wiki "Shipping Fees"
  ∨ (search_wiki Sample.wiki "SHIPPING FEES"
     = "I couldn't find specific information for 'SHIPPING FEES' in our GreatBuy WIKI. Could you rephrase or ask about something else?"
     ∧ search_wiki Sample.wiki "Shipping Fees"
       = "I couldn't find specific information for 'Shipping Fees' in our GreatBuy WIKI. Could you rephrase or ask about something else?").
Proof.
  apply (search_wiki_query_case Sample.wiki "SHIPPING FEES" "Shipping Fees").
  reflexivity.
Defined.

(** X5: the keywords are compared as stored, only the query is lowered.
    A keyword stored with a capital letter is not found by its own name:
    when the query equals it up to case, no other keyword matches and no
    article has the query in it, the answer is the not-found message. *)
Theorem search_wiki_capital_keyword_missed
    (before after : wiki_table) (keyword content query : string) :
  lower query = lower keyword →
  lower keyword ≠ keyword →
  Forall (λ e, str_in e.1 (lower query) = false
               ∧ str_in (lower query) e.1 = false) (before ++ after) →
  Forall (λ e, str_in (lower query) (lower e.2) = false)
    (before ++ (keyword, content) :: after) →
  search_wiki (before ++ (keyword, content) :: after) query
  = "I couldn't find specific information for '" +:+ query
    +:+ "' in our GreatBuy WIKI. Could you rephrase or ask about something else?".
Proof.
  intros Hquery Hcapital Hothers Hcontents. unfold search_wiki.
  apply Forall_app in Hothers as [Hbefore Hafter].
  rewrite find_keyword_match_none, (find_content_match_none _ _ Hcontents);
    [reflexivity |].
  apply Forall_app. split; [exact Hbefore |]. constructor; [| exact Hafter].
  simpl. rewrite Hquery. split.
  - destruct (str_in keyword (lower keyword)) eqn:Hin; [| reflexivity].
    apply str_in_same_length in Hin; [congruence | by rewrite length_lower].
  - destruct (str_in (lower keyword) keyword) eqn:Hin; [| reflexivity].
    apply str_in_same_length in Hin; [congruence | by rewrite length_lower].
Qed.

Lemma search_wiki_capital_keyword_missed_witness :
  search_wiki Odd.capital_wiki "returns"
  = "I couldn't find specific information for 'returns' in our GreatBuy WIKI. Could you rephrase or ask about something else?".
Proof.
  apply (search_wiki_capital_keyword_missed
           [] [("shipping fees", "Shipping is free for orders above 50 dollars.")]
           "Returns" _ "returns").
  - reflexivity.
  - by vm_compute.
  - repeat constructor.
  - repeat constructor.
Defined.

End WikiSearchMore.

(** ** More about the order handlers *)

Lemma startswith_append_l (p s rest : string) :
  startswith p s = true → startswith p (s +:+ rest) = true.
Proof.
  revert s. induction p as [|a p IH]; intros [|b s]; simpl; try done.
  intros [Hab Hps]%andb_true_iff. by rewrite Hab, (IH _ Hps).
Qed.

(** What occurs in a string occurs in the string with more text after
    it. *)
Lemma str_in_append_l (sub s rest : string) :
  str_in sub s = true → str_in sub (s +:+ rest) = true.
Proof.
  induction s as [|c s IH].
  - simpl. rewrite orb_false_r. intros Hp. apply str_in_startswith.
    by apply (startswith_append_l sub EmptyString).
  - rewrite append_cons. simpl. intros [Hp | Hin]%orb_true_iff.
    + apply (startswith_append_l sub (String c s) rest) in Hp.
      rewrite append_cons in Hp. by rewrite Hp.
    + rewrite (IH Hin). apply orb_true_r.
Qed.

(** Finds the order id in a message built around it. *)
Ltac find_in_message :=
  rewrite ?append_assoc;
  repeat first
    [ apply str_in_startswith, startswith_append
    | apply str_in_suffix ].

Section OrderHandlersMore.
Context {S : Type} `{OrderStore S}.

(** [if order:] fails for [None] and for the empty dict. *)
Lemma found_nothing (r : option order) :
  r = None ∨ r = Some ∅ → found r = None.
Proof. intros [-> | ->]; [reflexivity |]. unfold found. by rewrite decide_True. Qed.

Lemma found_nonempty (o : order) : o ≠ ∅ → found (Some o) = Some o.
Proof. intros Ho. unfold found. by rewrite decide_False. Qed.

Lemma update_order_status_absent (db : S) (order_id new_status : string) :
  found (db_get db order_id) = None →
  update_order_status order_id new_status db
  = (Returns ("Sorry, I could not find a GreatBuy order with ID '" +:+ order_id
              +:+ "' to update."), db).
Proof. intros Hnone. unfold_handler. by rewrite Hnone. Qed.

Lemma update_order_status_statusless
    (db : S) (order_id new_status : string) (o : order) :
  db_get db order_id = Some o → o ≠ ∅ → o !! "status" = None →
  update_order_status order_id new_status db = (Raises (KeyError "status"), db).
Proof.
  intros Hget Ho Hstatus. unfold_handler.
  rewrite Hget, (found_nonempty _ Ho), Hstatus.
  by destruct (bool_decide (lower new_status = "cancelled")).
Qed.

Lemma read_order_status_absent
    (sellers : seller_table) (db : S) (order_id : string) :
  found (db_get db order_id) = None →
  read_order_status sellers order_id db
  = (Returns ("Sorry, I could not find a GreatBuy order with ID '" +:+ order_id
              +:+ "'."), db).
Proof. intros Hnone. unfold_handler. by rewrite Hnone. Qed.

(** The fields the cancellation does not set are read from the record. *)
Lemma cancellation_patch_frame (o : order) (field : string) :
  field ≠ "status" → field ≠ "estimated_delivery_time" →
  (cancellation_patch ∪ o) !! field = o !! field.
Proof.
  intros Hne1 Hne2. apply lookup_union_r. unfold cancellation_patch.
  rewrite lookup_insert_ne by done. by rewrite lookup_singleton_ne.
Qed.

Lemma cancellation_patch_status (o : order) :
  (cancellation_patch ∪ o) !! "status" = Some (VStr "Cancelled").
Proof. apply lookup_union_Some_l. unfold cancellation_patch. by rewrite lookup_insert_eq. Qed.

Lemma cancellation_patch_delivery (o : order) :
  (cancellation_patch ∪ o) !! "estimated_delivery_time" = Some VNone.
Proof.
  apply lookup_union_Some_l. unfold cancellation_patch.
  rewrite lookup_insert_ne by done. by rewrite lookup_singleton_eq.
Qed.

(** X6: for an order id the store does not know, or whose record is the
    empty dict, [read_order_status] returns the not-found message, which
    has [could not find] and the id in it, and leaves the store as it
    was. *)
Theorem read_order_status_not_found
    (sellers : seller_table) (db : S) (order_id : string) :
  db_get db order_id = None ∨ db_get db order_id = Some ∅ →
  let message :=
    "Sorry, I could not find a GreatBuy order with ID '" +:+ order_id +:+ "'." in
  read_order_status sellers order_id db = (Returns message, db)
  ∧ str_in "could not find" message = true
  ∧ str_in order_id message = true.
Proof.
  intros Hget message. split; [| split].
  - by apply read_order_status_absent, found_nothing.
  - by apply str_in_append_l.
  - apply str_in_middle.
Qed.

(** X7: for an order id the store does not know, or whose record is the
    empty dict, [update_order_status] returns its own not-found message,
    whatever status is requested, and leaves the store as it was. *)
Theorem update_order_status_not_found
    (db : S) (order_id new_status : string) :
  db_get db order_id = None ∨ db_get db order_id = Some ∅ →
  let message :=
    "Sorry, I could not find a GreatBuy order with ID '" +:+ order_id
    +:+ "' to update." in
  update_order_status order_id new_status db = (Returns message, db)
  ∧ str_in "could not find" message = true
  ∧ str_in order_id message = true.
Proof.
  intros Hget message. split; [| split].
  - by apply update_order_status_absent, found_nothing.
  - by apply str_in_append_l.
  - apply str_in_middle.
Qed.

(** X8: every message [update_order_status] returns has the order id of
    the request in it. *)
Theorem update_order_status_names_order
    (db : S) (order_id new_status message : string) :
  (update_order_status order_id new_status db).1 = Returns message →
  str_in order_id message = true.
Proof.
  destruct (found (db_get db order_id)) as [o|] eqn:Hfound.
  - unfold found in Hfound.
    destruct (db_get db order_id) as [o'|] eqn:Hget; [| done].
    destruct (decide (o' = ∅)); [done |]. injection Hfound as ->.
    destruct (o !! "status") as [status|] eqn:Hstatus.
    + rewrite (update_order_status_found _ _ _ _ _ Hget Hstatus).
      destruct (bool_decide (lower new_status = "cancelled")).
      * destruct status as [|st|l]; try done.
        destruct (bool_decide (lower st ∈ cancellable_statuses)).
        -- destruct (db_update db order_id cancellation_patch) as [[] db'];
             intros [= <-]; apply str_in_middle.
        -- destruct (bool_decide (lower st = "cancelled"));
             intros [= <-]; apply str_in_middle.
      * intros [= <-]. find_in_message.
    + by rewrite (update_order_status_statusless _ _ _ _ Hget n Hstatus).
  - rewrite (update_order_status_absent _ _ _ Hfound).
    intros [= <-]. apply str_in_middle.
Qed.

(** X9: a request to cancel, up to case, an order whose status is a
    cancellable one, up to case, leaves the store that the store's update
    with the status [Cancelled] and the delivery time [None] leaves; in
    every other case the store after [update_order_status] is the store
    before it. *)
Theorem update_order_status_store_frame
    (db : S) (order_id new_status : string) :
  (∀ (o : order) (st : string),
     lower new_status = "cancelled" →
     db_get db order_id = Some o →
     o !! "status" = Some (VStr st) →
     lower st ∈ ["processing"; "awaiting shipment"; "preparing for shipment"] →
     (update_order_status order_id new_status db).2
     = (db_update db order_id
          {[ "status" := VStr "Cancelled";
             "estimated_delivery_time" := VNone ]}).2)
  ∧ (¬ (lower new_status = "cancelled"
        ∧ ∃ (o : order) (st : string),
            db_get db order_id = Some o
            ∧ o !! "status" = Some (VStr st)
            ∧ lower st
              ∈ ["processing"; "awaiting shipment"; "preparing for shipment"]) →
     (update_order_status order_id new_status db).2 = db).
Proof.
  split.
  - intros o st Hnew Hget Hstatus Hst.
    rewrite (update_order_status_found _ _ _ _ _ Hget Hstatus), Hnew. simpl.
    rewrite (bool_decide_eq_true_2 _ Hst). fold cancellation_patch.
    by destruct (db_update db order_id cancellation_patch) as [[] db'].
  - intros Hother.
    destruct (found (db_get db order_id)) as [o|] eqn:Hfound.
    + unfold found in Hfound.
      destruct (db_get db order_id) as [o'|] eqn:Hget; [| done].
      destruct (decide (o' = ∅)); [done |]. injection Hfound as ->.
      destruct (o !! "status") as [status|] eqn:Hstatus.
      * rewrite (update_order_status_found _ _ _ _ _ Hget Hstatus).
        destruct (bool_decide (lower new_status = "cancelled")) eqn:Hnew;
          [| done].
        apply bool_decide_eq_true_1 in Hnew.
        destruct status as [|st|l]; [done | | done].
        destruct (bool_decide (lower st ∈ cancellable_statuses)) eqn:Hst.
        -- apply bool_decide_eq_true_1 in Hst. destruct Hother.
           split; [exact Hnew |]. by exists o, st.
        -- by destruct (bool_decide (lower st = "cancelled")).
      * by rewrite (update_order_status_statusless _ _ _ _ Hget n Hstatus).
    + by rewrite (update_order_status_absent _ _ _ Hfound).
Qed.

(** X10: a stored record that is not empty and has no [status] field
    makes [update_order_status] raise [KeyError] for that field, whether
    the request is to cancel or not, and the store stays as it was. *)
Theorem update_order_status_missing_status
    (db : S) (order_id new_status : string) (o : order) :
  db_get db order_id = Some o →
  o ≠ ∅ →
  o !! "status" = None →
  update_order_status order_id new_status db = (Raises (KeyError "status"), db).
Proof.
  intros Hget Ho Hstatus. unfold_handler.
  rewrite Hget, (found_nonempty _ Ho), Hstatus.
  by destruct (bool_decide (lower new_status = "cancelled")).
Qed.

(** X11: on a stored record whose status is [None] or a list, a request
    to cancel raises [AttributeError], for the status has no [lower];
    the store's update is not called and the store stays as it was. *)
Theorem update_order_status_status_not_text
    (db : S) (order_id new_status : string) (o : order) (status : value) :
  db_get db order_id = Some o →
  o !! "status" = Some status →
  (∀ st : string, status ≠ VStr st) →
  lower new_status = "cancelled" →
  update_order_status order_id new_status db = (Raises AttributeError, db).
Proof.
  intros Hget Hstatus Htext Hnew.
  rewrite (update_order_status_found _ _ _ _ _ Hget Hstatus), Hnew. simpl.
  destruct status as [|st|l]; try reflexivity. by destruct (Htext st).
Qed.

(** A bind that returns went through a first step that returned. *)
Lemma bind_returns {A B : Type} (m : M S A) (k : A → M S B) (db : S) (b : B) :
  ((m ≫= k) db).1 = Returns b →
  ∃ (a : A) (db' : S), m db = (Returns a, db') ∧ (k a db').1 = Returns b.
Proof.
  unfold mbind, M_bind. destruct (m db) as [[a | e] db']; [| done].
  intros Hk. by exists a, db'.
Qed.

Lemma keeps_store_ret {A : Type} (a : A) : keeps_store (S := S) (mret a).
Proof. by intros db. Qed.

Lemma keeps_store_raise {A : Type} (e : exn) : keeps_store (S := S) (A := A) (raise e).
Proof. by intros db. Qed.

Lemma keeps_store_bind {A B : Type} (m : M S A) (k : A → M S B) :
  keeps_store m → (∀ a, keeps_store (k a)) → keeps_store (m ≫= k).
Proof.
  intros Hm Hk db. unfold mbind, M_bind. specialize (Hm db).
  destruct (m db) as [[a | e] db']; simpl in *; subst db'; [apply Hk | done].
Qed.

Lemma keeps_store_get_order (order_id : string) : keeps_store (get_order order_id).
Proof. by intros db. Qed.

Lemma keeps_store_getitem (o : order) (key : string) : keeps_store (S := S) (getitem o key).
Proof. unfold getitem. destruct (o !! key); [apply keeps_store_ret | apply keeps_store_raise]. Qed.

Lemma keeps_store_join_value (sep : string) (v : value) :
  keeps_store (S := S) (join_value sep v).
Proof. destruct v; simpl; [apply keeps_store_raise | apply keeps_store_ret ..]. Qed.

Lemma keeps_store_lookup_seller (sellers : seller_table) (v : value) :
  keeps_store (S := S) (lookup_seller sellers v).
Proof. destruct v; simpl; [apply keeps_store_ret .. | apply keeps_store_raise]. Qed.

(** X12: every message [read_order_status] returns has the order id of
    the request in it. *)
Theorem read_order_status_names_order
    (sellers : seller_table) (db : S) (order_id message : string) :
  (read_order_status sellers order_id db).1 = Returns message →
  str_in order_id message = true.
Proof.
  unfold read_order_status. intros Hrun.
  apply bind_returns in Hrun as (r & db1 & _ & Hrun).
  destruct (found r) as [o|]; [| injection Hrun as <-; apply str_in_middle].
  apply bind_returns in Hrun as (seller_name & db2 & _ & Hrun).
  apply bind_returns in Hrun as (items_str & db3 & _ & Hrun).
  apply bind_returns in Hrun as (status & db4 & _ & Hrun).
  destruct (get_truthy o "special_instructions").
  - apply bind_returns in Hrun as (instructions & db5 & _ & Hrun).
    injection Hrun as <-. find_in_message.
  - injection Hrun as <-. find_in_message.
Qed.

(** X13: [read_order_status] leaves the store as it was on every input,
    also when the record makes it raise. *)
Theorem read_order_status_store_unchanged
    (sellers : seller_table) (db : S) (order_id : string) :
  (read_order_status sellers order_id db).2 = db.
Proof.
  revert db. change (keeps_store (read_order_status sellers order_id)).
  unfold read_order_status.
  apply keeps_store_bind; [apply keeps_store_get_order |]. intros r.
  destruct (found r) as [o|]; [| apply keeps_store_ret].
  apply keeps_store_bind.
  { destruct (get_truthy o "seller_id"); [| apply keeps_store_ret].
    apply keeps_store_bind; [apply keeps_store_getitem |]. intros sid.
    apply keeps_store_bind; [apply keeps_store_lookup_seller |]. intros seller.
    apply keeps_store_ret. }
  intros seller_name.
  apply keeps_store_bind; [apply keeps_store_join_value |]. intros items_str.
  apply keeps_store_bind; [apply keeps_store_getitem |]. intros status.
  destruct (get_truthy o "special_instructions"); [| apply keeps_store_ret].
  apply keeps_store_bind; [apply keeps_store_getitem |]. intros instructions.
  apply keeps_store_ret.
Qed.

(** The seller and the items of a record in the shape [Sentence]
    describes are computed without an exception. *)
Lemma read_order_status_run
    (sellers : seller_table) (db : S) (order_id : string) (o : order)
    (items seller : string) :
  db_get db order_id = Some o →
  o ≠ ∅ →
  Sentence.items_text o items →
  Sentence.seller_text sellers o seller →
  read_order_status sellers order_id db
  = match o !! "status" with
    | Some status =>
        (Returns
           ("Order '" +:+ order_id +:+ "': Status is '" +:+ py_str status
            +:+ "'. Items: " +:+ items +:+ ". Seller: " +:+ seller
            +:+ ". Estimated Delivery: "
            +:+ py_str (default (VStr "N/A") (o !! "estimated_delivery_time"))
            +:+ ". "
            +:+ (if get_truthy o "special_instructions"
                 then "Special Instructions: "
                      +:+ py_str (default VNone (o !! "special_instructions"))
                 else EmptyString)),
         db)
    | None => (Raises (KeyError "status"), db)
    end.
Proof.
  intros Hget Ho Hitems Hseller.
  unfold_handler. rewrite Hget, (found_nonempty _ Ho). unfold get_truthy.
  destruct Hseller as [sid s Hsid Hne Hs | sid Hsid Hs | Hsid | Hsid | Hsid];
    rewrite Hsid; simpl;
    [ rewrite (bool_decide_eq_false_2 _ Hne); simpl; rewrite Hs
    | destruct (bool_decide (sid = EmptyString)); simpl; rewrite ?Hs
    | | | ].
  all: destruct Hitems as [l Hi | Hi]; rewrite Hi; simpl.
  all: destruct (o !! "status") as [status|]; simpl; [| reflexivity].
  all: destruct (o !! "special_instructions") as [v|]; simpl; [| reflexivity].
  all: destruct (truthy v); simpl; rewrite ?append_assoc; reflexivity.
Qed.

(** X14: a stored record that is not empty and has no [status] field,
    with items and a seller id of the expected shape, makes
    [read_order_status] raise [KeyError] for that field. *)
Theorem read_order_status_missing_status
    (sellers : seller_table) (db : S) (order_id : string) (o : order)
    (items seller : string) :
  db_get db order_id = Some o →
  o ≠ ∅ →
  o !! "status" = None →
  Sentence.items_text o items →
  Sentence.seller_text sellers o seller →
  read_order_status sellers order_id db = (Raises (KeyError "status"), db).
Proof.
  intros Hget Ho Hstatus Hitems Hseller.
  by rewrite (read_order_status_run _ _ _ _ _ _ Hget Ho Hitems Hseller), Hstatus.
Qed.

(** The cancellation leaves the items, the seller and the special
    instructions of a record as they were. *)
Lemma items_text_cancelled (o : order) (items : string) :
  Sentence.items_text o items → Sentence.items_text (cancellation_patch ∪ o) items.
Proof.
  intros [l Hi | Hi]; [apply Sentence.items_listed | apply Sentence.items_absent];
    by rewrite cancellation_patch_frame.
Qed.

Lemma seller_text_cancelled (sellers : seller_table) (o : order) (seller : string) :
  Sentence.seller_text sellers o seller →
  Sentence.seller_text sellers (cancellation_patch ∪ o) seller.
Proof.
  intros [sid s Hsid Hne Hs | sid Hsid Hs | Hsid | Hsid | Hsid].
  - apply (Sentence.seller_resolved _ _ sid); [| done ..].
    by rewrite cancellation_patch_frame.
  - apply (Sentence.seller_unresolvable _ _ sid); [| done].
    by rewrite cancellation_patch_frame.
  - apply Sentence.seller_empty. by rewrite cancellation_patch_frame.
  - apply Sentence.seller_none. by rewrite cancellation_patch_frame.
  - apply Sentence.seller_absent. by rewrite cancellation_patch_frame.
Qed.

(** X15: after a cancellation that the store accepts, a read of the same
    order shows the status [Cancelled] and the text [None] for the
    estimated delivery time; the items, the seller and the special
    instructions are written as they were before. *)
Theorem read_order_status_after_cancellation
    (sellers : seller_table) (db db' : S) (order_id new_status : string)
    (o : order) (st items seller instructions : string) :
  applies_updates S →
  db_get db order_id = Some o →
  o !! "status" = Some (VStr st) →
  lower st ∈ ["processing"; "awaiting shipment"; "preparing for shipment"] →
  lower new_status = "cancelled" →
  db_update db order_id
    {[ "status" := VStr "Cancelled"; "estimated_delivery_time" := VNone ]}
  = (true, db') →
  Sentence.items_text o items →
  Sentence.seller_text sellers o seller →
  Sentence.instructions_text o instructions →
  read_order_status sellers order_id
    (update_order_status order_id new_status db).2
  = (Returns
       ("Order '" +:+ order_id +:+ "': Status is 'Cancelled'. Items: " +:+ items
        +:+ ". Seller: " +:+ seller +:+ ". Estimated Delivery: None. "
        +:+ instructions),
     db').
Proof.
  intros Hstore Hget Hstatus Hst Hnew Hupdate Hitems Hseller Hinstructions.
  fold cancellation_patch in Hupdate.
  rewrite (update_order_status_found _ _ _ _ _ Hget Hstatus), Hnew. simpl.
  rewrite (bool_decide_eq_true_2 _ Hst), Hupdate. simpl.
  pose proof (Hstore _ _ _ _ _ Hget Hupdate) as Hget'.
  assert (cancellation_patch ∪ o ≠ ∅) as Ho'.
  { intros Hempty. pose proof (cancellation_patch_status o) as Hs.
    by rewrite Hempty, lookup_empty in Hs. }
  rewrite (read_order_status_run _ _ _ _ _ _ Hget' Ho'
             (items_text_cancelled _ _ Hitems)
             (seller_text_cancelled _ _ _ Hseller)).
  rewrite cancellation_patch_status, cancellation_patch_delivery.
  unfold get_truthy. rewrite cancellation_patch_frame by done. simpl.
  destruct Hinstructions as [t Hi Ht | Hi | Hi | Hi]; rewrite Hi; simpl;
    rewrite ?(bool_decide_eq_false_2 _ Ht); reflexivity.
Qed.

(** X16: after a cancellation that the store accepts, the same request
    again gets the confirmation that the order is already cancelled, and
    no request for that order, whatever status it asks for, changes the
    store any more. *)
Theorem update_order_status_after_cancellation
    (db db' : S) (order_id new_status : string) (o : order) (st : string) :
  applies_updates S →
  db_get db order_id = Some o →
  o !! "status" = Some (VStr st) →
  lower st ∈ ["processing"; "awaiting shipment"; "preparing for shipment"] →
  lower new_status = "cancelled" →
  db_update db order_id
    {[ "status" := VStr "Cancelled"; "estimated_delivery_time" := VNone ]}
  = (true, db') →
  (update_order_status order_id new_status db).2 = db'
  ∧ update_order_status order_id new_status db'
    = (Returns ("Order '" +:+ order_id +:+ "' is already cancelled."), db')
  ∧ ∀ requested : string,
      (update_order_status order_id requested db').2 = db'.
Proof.
  intros Hstore Hget Hstatus Hst Hnew Hupdate.
  fold cancellation_patch in Hupdate.
  pose proof (Hstore _ _ _ _ _ Hget Hupdate) as Hget'.
  pose proof (cancellation_patch_status o) as Hstatus'.
  split; [| split].
  - rewrite (update_order_status_found _ _ _ _ _ Hget Hstatus), Hnew. simpl.
    by rewrite (bool_decide_eq_true_2 _ Hst), Hupdate.
  - rewrite (update_order_status_found _ _ _ _ _ Hget' Hstatus'), Hnew.
    reflexivity.
  - intros requested.
    rewrite (update_order_status_found _ _ _ _ _ Hget' Hstatus').
    by destruct (bool_decide (lower requested = "cancelled")).
Qed.

End OrderHandlersMore.

(** ** More runs on the sample stores *)

Section OnSampleStoreMore.

Lemma read_order_status_not_found_witness :
  read_order_status Sample.sellers "UNKNOWN99" Sample.db
  = (Returns "Sorry, I could not find a GreatBuy order with ID 'UNKNOWN99'.",
     Sample.db)
  ∧ str_in "could not find"
      "Sorry, I could not find a GreatBuy order with ID 'UNKNOWN99'." = true
  ∧ str_in "UNKNOWN99"
      "Sorry, I could not find a GreatBuy order with ID 'UNKNOWN99'." = true.
Proof.
  apply (read_order_status_not_found Sample.sellers Sample.db "UNKNOWN99").
  left. reflexivity.
Defined.

(** The record stored for this id is the empty dict. *)
Lemma update_order_status_not_found_witness :
  update_order_status "ORDZW012" "cancelled" Odd.db
  = (Returns "Sorry, I could not find a GreatBuy order with ID 'ORDZW012' to update.",
     Odd.db)
  ∧ str_in "could not find"
      "Sorry, I could not find a GreatBuy order with ID 'ORDZW012' to update." = true
  ∧ str_in "ORDZW012"
      "Sorry, I could not find a GreatBuy order with ID 'ORDZW012' to update." = true.
Proof.
  apply (update_order_status_not_found Odd.db "ORDZW012" "cancelled").
  right. reflexivity.
Defined.

Lemma update_order_status_names_order_witness :
  str_in "ORDZW002"
    "This tool is primarily for cancelling orders. To change status to 'shipped' is not supported via this action for order 'ORDZW002'. Current status remains 'Delivered'."
  = true.
Proof.
  apply (update_order_status_names_order Sample.db "ORDZW002" "shipped").
  reflexivity.
Defined.

Lemma update_order_status_store_frame_witness :
  (update_order_status "ORDZW001" "CANCELLED" Sample.db).2
  = (db_update Sample.db "ORDZW001"
       {[ "status" := VStr "Cancelled"; "estimated_delivery_time" := VNone ]}).2.
Proof.
  apply (proj1 (update_order_status_store_frame Sample.db "ORDZW001" "CANCELLED")
           Sample.processing_order "Processing").
  - reflexivity.
  - reflexivity.
  - reflexivity.
  - apply (bool_decide_unpack _). reflexivity.
Defined.

Lemma update_order_status_missing_status_witness :
  update_order_status "ORDZW010" "shipped" Odd.db
  = (Raises (KeyError "status"), Odd.db).
Proof.
  apply (update_order_status_missing_status
           Odd.db "ORDZW010" "shipped" Odd.no_status_order); done.
Defined.

Lemma update_order_status_status_not_text_witness :
  update_order_status "ORDZW011" "Cancelled" Odd.db
  = (Raises AttributeError, Odd.db).
Proof.
  apply (update_order_status_status_not_text
           Odd.db "ORDZW011" "Cancelled" Odd.none_status_order VNone); done.
Defined.

Lemma read_order_status_names_order_witness :
  str_in "ORDZW004"
    "Order 'ORDZW004': Status is 'Shipped'. Items: . Seller: Unknown Seller. Estimated Delivery: N/A. "
  = true.
Proof.
  apply (read_order_status_names_order Sample.sellers Sample.db "ORDZW004").
  reflexivity.
Defined.

Lemma read_order_status_missing_status_witness :
  read_order_status Sample.sellers "ORDZW010" Odd.db
  = (Raises (KeyError "status"), Odd.db).
Proof.
  apply (read_order_status_missing_status
           Sample.sellers Odd.db "ORDZW010" Odd.no_status_order
           "Keyboard" "Unknown Seller").
  - reflexivity.
  - done.
  - reflexivity.
  - by apply (Sentence.items_listed _ ["Keyboard"]).
  - by apply Sentence.seller_absent.
Defined.

Lemma read_order_status_after_cancellation_witness :
  read_order_status Sample.sellers "ORDZW001"
    (update_order_status "ORDZW001" "cancelled" Sample.db).2
  = (Returns
       "Order 'ORDZW001': Status is 'Cancelled'. Items: Laptop, Mouse. Seller: Acme Electronics. Estimated Delivery: None. Special Instructions: Leave at the door",
     {| orders := <["ORDZW001" := cancellation_patch ∪ Sample.processing_order]>
                    Sample.records;
        writable := true |}).
Proof.
  apply (read_order_status_after_cancellation
           Sample.sellers Sample.db _ "ORDZW001" "cancelled"
           Sample.processing_order "Processing" "Laptop, Mouse"
           "Acme Electronics" "Special Instructions: Leave at the door"
           FileStore_applies_updates).
  - reflexivity.
  - reflexivity.
  - apply (bool_decide_unpack _). reflexivity.
  - reflexivity.
  - reflexivity.
  - by apply (Sentence.items_listed _ ["Laptop"; "Mouse"]).
  - by apply (Sentence.seller_resolved _ _ "SEL001" {| name := "Acme Electronics" |}).
  - by apply (Sentence.instructions_given _ "Leave at the door").
Defined.

Lemma update_order_status_after_cancellation_witness :
  update_order_status "ORDZW001" "cancelled"
    {| orders := <["ORDZW001" := cancellation_patch ∪ Sample.processing_order]>
                   Sample.records;
       writable := true |}
  = (Returns "Order 'ORDZW001' is already cancelled.",
     {| orders := <["ORDZW001" := cancellation_patch ∪ Sample.processing_order]>
                    Sample.records;
        writable := true |}).
Proof.
  apply (update_order_status_after_cancellation
           Sample.db _ "ORDZW001" "cancelled" Sample.processing_order "Processing"
           FileStore_applies_updates).
  - reflexivity.
  - reflexivity.
  - apply (bool_decide_unpack _). reflexivity.
  - reflexivity.
  - reflexivity.
Defined.

End OnSampleStoreMore.
